(** * ProsperAPI: the cache-backed id validation of [publicAPI/crest_utils.py]

    A shallow embedding of [setup_cache_file], [write_cache_entry],
    [endpoint_to_kwarg], [validate_id] and [fetch_crest_endpoint], and of
    [load_globals] of [publicAPI/config.py], with the parts of Python, TinyDB,
    configparser and requests that these functions touch, and the properties
    of the cache, of the resolver, of the fetch, of the validation pipeline
    and of the globals stated over it. *)

From stdpp Require Import base option list strings gmap fin_maps.
From Stdlib Require Import ZArith Lia Ascii.

Local Open Scope Z_scope.
Local Open Scope string_scope.

Set Warnings "-register-all".

(** ** Python values *)

(** POSIX timestamps, as [datetime.utcnow().timestamp()] returns them.  They
    are kept as exact values, in whole seconds. *)
Definition time := Z.

(** The values that travel through the module: identifiers, timestamps and
    JSON payloads.  A [PFloat] holds its exact value; a dictionary nested in a
    payload keeps its items in order. *)
Inductive pyval :=
| PNone
| PBool (b : bool)
| PInt (z : Z)
| PFloat (x : time)
| PStr (s : string)
| PList (l : list pyval)
| PDict (d : list (string * pyval)).

(** Structural comparison of two values. *)
Fixpoint pyval_eqb (a b : pyval) {struct a} : bool :=
  match a, b with
  | PNone, PNone => true
  | PBool x, PBool y => Bool.eqb x y
  | PInt x, PInt y => Z.eqb x y
  | PFloat x, PFloat y => Z.eqb x y
  | PStr x, PStr y => String.eqb x y
  | PList l1, PList l2 =>
      (fix go (l1 l2 : list pyval) : bool :=
         match l1, l2 with
         | [], [] => true
         | x :: l1, y :: l2 => pyval_eqb x y && go l1 l2
         | _, _ => false
         end) l1 l2
  | PDict d1, PDict d2 =>
      (fix go (d1 d2 : list (string * pyval)) : bool :=
         match d1, d2 with
         | [], [] => true
         | (k1, x) :: d1, (k2, y) :: d2 =>
             String.eqb k1 k2 && pyval_eqb x y && go d1 d2
         | _, _ => false
         end) d1 d2
  | _, _ => false
  end.

(** The number a value stands for in a comparison: Python compares [bool],
    [int] and [float] by value. *)
Definition num_of (v : pyval) : option Z :=
  match v with
  | PBool b => Some (Z.b2z b)
  | PInt z => Some z
  | PFloat x => Some x
  | _ => None
  end.

(** [a == b].  Numbers are compared by value; lists and dictionaries are
    compared item by item as they are stored, which is Python's [==] as soon
    as one side is [None], a boolean, an integer or a string. *)
Definition py_eq (a b : pyval) : bool :=
  match num_of a, num_of b with
  | Some x, Some y => Z.eqb x y
  | None, None => pyval_eqb a b
  | _, _ => false
  end.

(** [a >= b] on numbers; no other comparison is made by the module. *)
Definition py_ge (a b : pyval) : bool :=
  match num_of a, num_of b with
  | Some x, Some y => Z.leb y x
  | _, _ => false
  end.

(** Truth value of a list: a list is true when it is not empty. *)
Definition nonempty {A} (l : list A) : bool :=
  match l with [] => false | _ => true end.

(** Truth value of an object, as [if v:] takes it. *)
Definition truthy (v : pyval) : bool :=
  match v with
  | PNone => false
  | PBool b => b
  | PInt z => negb (Z.eqb z 0)
  | PFloat x => negb (Z.eqb x 0)
  | PStr s => negb (String.eqb s "")
  | PList l => nonempty l
  | PDict d => nonempty d
  end.

(** ** Exceptions *)

(** Modelled from the spec: the classes of [publicAPI.exceptions], which this
    module raises ([UnsupportedCrestEndpoint], [CrestAddressError],
    [IDValidationError]); all of them are ordinary exceptions, which an
    [except Exception] clause catches.  The others are the built-in and
    library exceptions the code can meet.  [IDValidationError] is built from a
    status and the message ['Unable to validate {0}:{1}'], kept here as its two
    arguments; it is raised inside an [except] clause, so the exception being
    handled is recorded as its context. *)
Inductive exn :=
| AttributeError (obj attr : string)
| TypeError (what : string)
| UnboundLocalError (var : string)
| OSError (file : string)
| ValueError (what : string)
| KeyError (key : string)
| NoSectionError (section : string)
| NoOptionError (section option : string)
| ConnectionError
| HTTPError (status : Z)
| UnsupportedCrestEndpoint (message : string)
| CrestAddressError (message : string)
| IDValidationError (status : Z) (endpoint_name : string) (type_id : pyval)
                    (context : exn).

Inductive result (A : Type) :=
| Ok (a : A)
| Raise (e : exn).
Arguments Ok {A} a.
Arguments Raise {A} e.

(** ** TinyDB *)

(** A document is a dictionary; a table is the list of its documents, in
    insertion order. *)
Abbreviation doc := (gmap string pyval).
Abbreviation table := (list (gmap string pyval)).

(** The objects of the query language: a plain value, [Query().field], and
    the test a comparison on a field produces. *)
Inductive qobj :=
| QVal (v : pyval)
| QPath (field : string)
| QTest (test : doc → bool).

Definition q_truthy (q : qobj) : bool :=
  match q with
  | QVal v => truthy v
  | _ => true
  end.

(** The test of [Query().field == rhs]: a document without the field does not
    match. *)
Definition field_eq (field : string) (rhs : pyval) : doc → bool :=
  λ d, match d !! field with Some v => py_eq v rhs | None => false end.

(** The test of [Query().field >= rhs]. *)
Definition field_ge (field : string) (rhs : pyval) : doc → bool :=
  λ d, match d !! field with Some v => py_ge v rhs | None => false end.

(** [table.search(cond)]: the documents that pass the test. *)
Definition search (cond : doc → bool) (t : table) : table :=
  List.filter cond t.

(** [table.update(fields, cond)]: [dict.update(fields)] on every document that
    passes the test. *)
Definition update (fields : doc) (cond : doc → bool) (t : table) : table :=
  (λ d, if cond d then fields ∪ d else d) <$> t.

(** [table.insert(document)]. *)
Definition insert (d : doc) (t : table) : table := t ++ [d].

(** ** The world around the module *)

(** A cache file on disk: in order, unreadable as JSON, or out of reach (the
    directory is missing or not writable). *)
Inductive store_state := Healthy | Corrupt | Unreachable.

(** An address template as [str.format] reads it: literal text and
    replacement fields [{name}]. *)
Inductive piece :=
| Lit (text : string)
| Field (name : string).

(** A concrete address: the literal text and the substituted values. *)
Inductive upiece :=
| UText (text : string)
| UValue (v : pyval).
Abbreviation url := (list upiece).

(** A loaded configuration, by section ([None]: the section is missing).  The
    options are kept as the module reads them: an address template, the user
    agent string, and what [int()] makes of a cache limit ([None]: not an
    integer literal). *)
Record ConfigParser := {
  RESOURCES : option (gmap string (list piece));
  GLOBAL : option (gmap string string);
  CACHING : option (gmap string (option Z));
}.

(** What the remote service answers to a GET. *)
Inductive http_result :=
| NoConnection
| Response (status_code : Z) (body : option pyval).

(** What the module does not control.  [api_config_CONFIG] is the value of
    [api_config.CONFIG] that the [config=api_config.CONFIG] defaults hold
    ([None] as config.py sets it, a configuration once one is loaded there);
    [utcnow n] is the [n]-th reading of the clock; [tinydb_find] is what the
    attribute [find] of a TinyDB handle does with a table and an argument,
    [None] when the handle has no such attribute (TinyDB hands the names it
    does not know to its table, whose operations are [insert], [all],
    [search], [get], [contains], [count], [update], [remove] and [purge]). *)
Record env := {
  api_config_CONFIG : option ConfigParser;
  utcnow : nat → time;
  store : string → store_state;
  remote : url → http_result;
  tinydb_find : option (list (gmap string pyval) → qobj → result pyval);
}.

(** What the module changes: the documents of each cache file, the requests
    sent to the remote service, and the number of clock readings so far. *)
Record world := {
  tables : gmap string (list (gmap string pyval));
  sent : list url;
  ticks : nat;
}.

Definition table_of (w : world) (db_filename : string) : table :=
  default [] (tables w !! db_filename).

(** ** Computations: a state and exception monad over the world *)

Definition M (A : Type) : Type := world → result A * world.

#[global] Instance M_ret : MRet M := λ A a w, (Ok a, w).
#[global] Instance M_bind : MBind M := λ A B f m w,
  match m w with
  | (Ok a, w') => f a w'
  | (Raise e, w') => (Raise e, w')
  end.

Definition raise {A} (e : exn) : M A := λ w, (Raise e, w).

(** A pure step that may raise. *)
Definition lift {A} (r : result A) : M A := λ w, (r, w).

(** [try: body / except Exception: handler]. *)
Definition try_except {A} (body : M A) (handler : exn → M A) : M A := λ w,
  match body w with
  | (Ok a, w') => (Ok a, w')
  | (Raise e, w') => handler e w'
  end.

(** [os.path.join] of two components, on a POSIX system: an absolute second
    component stands alone, and a separator is added unless the first ends
    with one or is empty. *)
Fixpoint ends_with_sep (s : string) : bool :=
  match s with
  | EmptyString => false
  | String c EmptyString => Ascii.eqb c "/"%char
  | String _ rest => ends_with_sep rest
  end.

Definition path_join (a b : string) : string :=
  match b with
  | String "/"%char _ => b
  | _ => if String.eqb a "" || ends_with_sep a then a +:+ b else a +:+ "/" +:+ b
  end.

(** The cutoff of the lookup: [cache_time] in [validate_id]. *)
Definition cache_time (now : time) (sde_cache_limit : Z) : time :=
  now - sde_cache_limit.

Section CrestUtils.
Context (E : env).

(** [datetime.utcnow().timestamp()]. *)
Definition utcnow_timestamp : M time := λ w,
  (Ok (utcnow E (ticks w)),
   {| tables := tables w; sent := sent w; ticks := S (ticks w) |}).

(** Reading and writing the file behind a TinyDB handle; a handle is the name
    of its file.  The handle keeps its file open: a directory that goes out
    of reach afterwards does not stop the operations, a file that does not
    hold JSON does. *)
Definition read_table (db_filename : string) : M table := λ w,
  match store E db_filename with
  | Corrupt => (Raise (ValueError db_filename), w)
  | _ => (Ok (table_of w db_filename), w)
  end.

Definition write_table (db_filename : string) (t : table) : M unit := λ w,
  match store E db_filename with
  | Corrupt => (Raise (ValueError db_filename), w)
  | _ =>
      (Ok (), {| tables := <[db_filename := t]> (tables w);
                 sent := sent w; ticks := ticks w |})
  end.

Definition db_search (h : string) (cond : doc → bool) : M table :=
  t ← read_table h; mret (search cond t).

Definition db_update (h : string) (fields : doc) (cond : doc → bool) : M unit :=
  t ← read_table h; write_table h (update fields cond t).

Definition db_insert (h : string) (d : doc) : M unit :=
  t ← read_table h; write_table h (insert d t).

(** ** crest_utils.py *)

Definition CACHE_PATH : string := "cache".

(** [setup_cache_file]: the handle of
    [path.join(cache_path, cache_filename + '.json')].  [TinyDB(db_filename)]
    opens the file, creating it when it is missing (an empty file holds no
    document), and reads it: it raises when the directory is out of reach and
    when the file does not hold JSON. *)
Definition setup_cache_file (cache_filename : string) (cache_path : string)
  : M string :=
  let db_filename := path_join cache_path (cache_filename +:+ ".json") in
  match store E db_filename with
  | Unreachable => raise (OSError db_filename)
  | Corrupt => raise (ValueError db_filename)
  | Healthy => mret db_filename
  end.

(** [write_cache_entry]. *)
Definition write_cache_entry (tinydb_handle : string) (index_key : pyval)
    (data_payload : pyval) : M unit :=
  found ← db_search tinydb_handle (field_eq "index_key" index_key);
  if nonempty found then
    now ← utcnow_timestamp;
    db_update tinydb_handle
      {[ "cache_datetime" := PFloat now; "payload" := data_payload ]}
      (field_eq "index_key" index_key)
  else
    now ← utcnow_timestamp;
    db_insert tinydb_handle
      {[ "cache_datetime" := PFloat now; "payload" := data_payload;
         "index_key" := index_key ]}.

(** [endpoint_to_kwarg]. *)
Definition endpoint_to_kwarg (endpoint_name : string) (type_id : pyval)
  : result (gmap string pyval) :=
  if String.eqb endpoint_name "inventory_types" then
    Ok {[ "type_id" := type_id ]}
  else if String.eqb endpoint_name "map_regions" then
    Ok {[ "region_id" := type_id ]}
  else
    Raise (UnsupportedCrestEndpoint ("No configuration for " +:+ endpoint_name)).


(** [config.get(section, option)], on the [config] argument as it is passed:
    [None] has no [get].  The option is looked up under the name given, as
    [configparser] does for names in lower case. *)
Definition config_get {V} (config : option ConfigParser) (section : string)
    (options : ConfigParser → option (gmap string V)) (option : string) : result V :=
  match config with
  | None => Raise (AttributeError "NoneType" "get")
  | Some c =>
      match options c with
      | None => Raise (NoSectionError section)
      | Some s =>
          match s !! option with
          | None => Raise (NoOptionError section option)
          | Some v => Ok v
          end
      end
  end.

(** [int(s)] on an option of the [CACHING] section. *)
Definition int (s : option Z) : result Z :=
  match s with
  | Some z => Ok z
  | None => Raise (ValueError "invalid literal for int()")
  end.

(** [x & b] for a float [x]: [float] has no [&], and neither a plain value nor
    a query object implements the reflected operation for a float. *)
Definition float_and (x : time) (b : qobj) : result pyval :=
  Raise (TypeError "unsupported operand type(s) for &").

(** The argument of [find] in [validate_id],

      [Query().cache_datetime >= cache_time & Query().index_key == type_id]

    [&] binds tighter than the comparisons, which therefore chain:
    [Query().cache_datetime >= m and m == type_id] with
    [m = cache_time & Query().index_key].  A query object is true. *)
Definition find_argument (cache_time : time) (type_id : pyval) : result qobj :=
  match float_and cache_time (QPath "index_key") with
  | Raise e => Raise e
  | Ok m =>
      let c := QTest (field_ge "cache_datetime" m) in
      if q_truthy c then Ok (QVal (PBool (py_eq m type_id))) else Ok c
  end.

(** [db_handle.find(...)]: the attribute is looked up, then the argument is
    evaluated, then the call is made. *)
Definition db_find (db_handle : string) (cache_time : time) (type_id : pyval)
  : M pyval :=
  match tinydb_find E with
  | None => raise (AttributeError "Table" "find")
  | Some find =>
      arg ← lift (find_argument cache_time type_id);
      t ← read_table db_handle;
      lift (find t arg)
  end.

(** The local variables of [validate_id] that the cache lookup may leave
    unbound. *)
Record locals := {
  db_handle : option string;
  cache_val : option pyval;
}.

(** Reading a local variable. *)
Definition load {A} (name : string) (var : option A) : result A :=
  match var with
  | Some v => Ok v
  | None => Raise (UnboundLocalError name)
  end.

(** The [try] block of [validate_id] that looks the identifier up in the
    cache, with its [except Exception: ... pass]: the variables bound when
    the block is left. *)
Definition cache_lookup (endpoint_name : string) (type_id : pyval)
    (config : option ConfigParser) : world → locals * world := λ w,
  match setup_cache_file endpoint_name CACHE_PATH w with
  | (Raise _, w1) => ({| db_handle := None; cache_val := None |}, w1)
  | (Ok h, w1) =>
      match (now ← utcnow_timestamp;
             limit ← lift (config_get config "CACHING" CACHING "sde_cache_limit");
             limit ← lift (int limit);
             db_find h (cache_time now limit) type_id) w1 with
      | (Raise _, w2) => ({| db_handle := Some h; cache_val := None |}, w2)
      | (Ok v, w2) => ({| db_handle := Some h; cache_val := Some v |}, w2)
      end
  end.

Definition CREST_BASE : string := "https://crest-tq.eveonline.com/".

(** [crest_url.format] on the keywords, for templates with named fields: a
    field without a keyword is a [KeyError].
    The base address holds no replacement field. *)
Fixpoint format (template : list piece) (kwargs : gmap string pyval)
  : result url :=
  match template with
  | [] => Ok []
  | Lit text :: rest =>
      match format rest kwargs with
      | Ok u => Ok (UText text :: u)
      | Raise e => Raise e
      end
  | Field name :: rest =>
      match kwargs !! name with
      | None => Raise (KeyError name)
      | Some v =>
          match format rest kwargs with
          | Ok u => Ok (UValue v :: u)
          | Raise e => Raise e
          end
      end
  end.

(** [requests.get(crest_url, headers=headers)]. *)
Definition requests_get (crest_url : url) : M (Z * option pyval) := λ w,
  let w' := {| tables := tables w; sent := sent w ++ [crest_url];
               ticks := ticks w |} in
  match remote E crest_url with
  | NoConnection => (Raise ConnectionError, w')
  | Response status_code body => (Ok (status_code, body), w')
  end.

(** [req.raise_for_status()]: requests raises for the client and the server
    errors. *)
Definition raise_for_status (req : Z * option pyval) : result unit :=
  if ((400 <=? req.1) && (req.1 <? 600))%Z then Raise (HTTPError req.1)
  else Ok ().

(** [req.json()]. *)
Definition json (req : Z * option pyval) : result pyval :=
  match req.2 with
  | Some data => Ok data
  | None => Raise (ValueError "No JSON object could be decoded")
  end.

(** [repr(err_msg)] of the [KeyError] of a field name. *)
Definition repr_KeyError (key : string) : string := "KeyError('" +:+ key +:+ "')".

(** [fetch_crest_endpoint]. *)
Definition fetch_crest_endpoint (endpoint_name : string) (crest_base : string)
    (config : option ConfigParser) (kwargs : gmap string pyval) : M pyval :=
  template ← lift
    match config_get config "RESOURCES" RESOURCES endpoint_name with
    | Raise (NoOptionError _ _) =>
        Raise (UnsupportedCrestEndpoint
                 ("No " +:+ endpoint_name +:+ " found in [RESOURCES]"))
    | r => r
    end;
  crest_url ← lift
    match format (Lit crest_base :: template) kwargs with
    | Raise (KeyError key) => Raise (CrestAddressError (repr_KeyError key))
    | r => r
    end;
  useragent ← lift (config_get config "GLOBAL" GLOBAL "useragent");
  req ← requests_get crest_url;
  _ ← lift (raise_for_status req);
  lift (json req).

(** [validate_id], from [## Request info from CREST ##] on. *)
Definition request_and_update (vars : locals) (endpoint_name : string)
    (type_id : pyval) : M pyval :=
  type_info ← try_except
    (kwarg_pair ← lift (endpoint_to_kwarg endpoint_name type_id);
     fetch_crest_endpoint endpoint_name CREST_BASE (api_config_CONFIG E)
       kwarg_pair)
    (λ err_msg, raise (IDValidationError 404 endpoint_name type_id err_msg));
  _ ← try_except
    (h ← lift (load "db_handle" (db_handle vars));
     write_cache_entry h type_id type_info)
    (λ err_msg, mret ());
  mret type_info.

(** [validate_id]. *)
Definition validate_id (endpoint_name : string) (type_id : pyval)
    (cache_buster : bool) (config : option ConfigParser) : M pyval := λ w,
  if negb cache_buster then
    let '(vars, w1) := cache_lookup endpoint_name type_id config w in
    match load "cache_val" (cache_val vars) with
    | Raise e => (Raise e, w1)
    | Ok v =>
        if truthy v then (Ok v, w1)
        else request_and_update vars endpoint_name type_id w1
    end
  else
    request_and_update {| db_handle := None; cache_val := None |}
      endpoint_name type_id w.

End CrestUtils.

(** ** Sample configuration, environments and worlds *)

(** A configuration with the two address templates, a user agent and a cache
    limit of one hour. *)
Definition sample_config : ConfigParser := {|
  RESOURCES := Some {[
    "inventory_types" := [Lit "inventory/types/"; Field "type_id"; Lit "/"];
    "map_regions" := [Lit "regions/"; Field "region_id"; Lit "/"] ]};
  GLOBAL := Some {[ "useragent" := "lockefox @EVEProsper test" ]};
  CACHING := Some {[ "sde_cache_limit" := Some 3600 ]};
|}.

Definition tritanium : pyval := PDict [("id", PInt 34); ("name", PStr "Tritanium")].
Definition rifter : pyval := PDict [("id", PInt 587); ("name", PStr "Rifter")].

Definition types_url (type_id : pyval) : url :=
  [UText CREST_BASE; UText "inventory/types/"; UValue type_id; UText "/"].

(** A remote service that knows the type 587, offers a choice of
    representations (status 300, with a body) for the type 34, and answers 404
    to everything else. *)
Definition sample_remote (u : url) : http_result :=
  match u with
  | [UText _; UText _; UValue (PInt 587); UText _] => Response 200 (Some rifter)
  | [UText _; UText _; UValue (PInt 34); UText _] => Response 300 (Some tritanium)
  | _ => Response 404 None
  end.

(** The clock starts at 1000 and advances by a second at each reading; the
    cache files are in order. *)
Definition sample_env : env := {|
  api_config_CONFIG := Some sample_config;
  utcnow := λ n, 1000 + Z.of_nat n;
  store := λ _, Healthy;
  remote := sample_remote;
  tinydb_find := None;
|}.

(** The same, with the cache directory out of reach. *)
Definition offline_cache_env : env := {|
  api_config_CONFIG := Some sample_config;
  utcnow := λ n, 1000 + Z.of_nat n;
  store := λ _, Unreachable;
  remote := sample_remote;
  tinydb_find := None;
|}.

Definition empty_world : world := {| tables := ∅; sent := []; ticks := 0 |}.

(** A world whose cache holds an entry for the type 587, written at 990. *)
Definition old_entry : gmap string pyval :=
  {[ "cache_datetime" := PFloat 990; "payload" := PStr "stale copy";
     "index_key" := PInt 587 ]}.

Definition cached_world : world := {|
  tables := {[ "cache/inventory_types.json" := [old_entry] ]};
  sent := [];
  ticks := 0;
|}.

(** ** Properties of the cache table *)

(** At most one entry per [index_key]. *)
Definition unique_keys (t : table) : Prop :=
  ∀ k, (length (search (field_eq "index_key" k) t) ≤ 1)%nat.

(** The comparison [Query().cache_datetime >= cache_time] that the lookup is
    written with.  As Python groups the operands (see [find_argument]) the
    lookup never evaluates it; it serves to say that an entry is within the
    cache limit. *)
Definition fresh_query (cache_time : time) : doc → bool :=
  field_ge "cache_datetime" (PFloat cache_time).

(** ** config.py *)

(** The module globals that [load_globals] and the rest of the package read. *)
Record globals := {
  USER_AGENT : string;
  USER_AGENT_SHORT : string;
  DEFAULT_RANGE : Z;
  MAX_RANGE : Z;
  DEFAULT_HISTORY_RANGE : Z;
  EXPECTED_CREST_RANGE : Z;
}.

(** Their values when the module is imported. *)
Definition imported_globals : globals := {|
  USER_AGENT := "lockefox https://github.com/EVEprosper/ProsperAPI";
  USER_AGENT_SHORT := "lockefox @EVEProsper test";
  DEFAULT_RANGE := 60;
  MAX_RANGE := 180;
  DEFAULT_HISTORY_RANGE := 700;
  EXPECTED_CREST_RANGE := 400;
|}.

(** The configuration as config.py reads it: the sections that crest_utils.py
    reads, and the section [CREST], whose options are kept as what [int()]
    makes of them. *)
Record AppConfig := {
  sections : ConfigParser;
  CREST : option (gmap string (option Z));
}.

(** [config.get('CREST', name)]. *)
Definition crest_get (config : option AppConfig) (name : string)
  : result (option Z) :=
  match config with
  | None => Raise (AttributeError "NoneType" "get")
  | Some c =>
      match CREST c with
      | None => Raise (NoSectionError "CREST")
      | Some s =>
          match s !! name with
          | None => Raise (NoOptionError "CREST" name)
          | Some v => Ok v
          end
      end
  end.

(** Statements that assign module globals: a state and exception monad over
    the globals. *)
Definition G (A : Type) : Type := globals → result A * globals.

#[global] Instance G_ret : MRet G := λ A a g, (Ok a, g).
#[global] Instance G_bind : MBind G := λ A B f m g,
  match m g with
  | (Ok a, g') => f a g'
  | (Raise e, g') => (Raise e, g')
  end.

Definition eval {A} (r : result A) : G A := λ g, (r, g).

Definition set_USER_AGENT (v : string) : G unit := λ g,
  (Ok (), {| USER_AGENT := v; USER_AGENT_SHORT := USER_AGENT_SHORT g;
             DEFAULT_RANGE := DEFAULT_RANGE g; MAX_RANGE := MAX_RANGE g;
             DEFAULT_HISTORY_RANGE := DEFAULT_HISTORY_RANGE g;
             EXPECTED_CREST_RANGE := EXPECTED_CREST_RANGE g |}).

Definition set_USER_AGENT_SHORT (v : string) : G unit := λ g,
  (Ok (), {| USER_AGENT := USER_AGENT g; USER_AGENT_SHORT := v;
             DEFAULT_RANGE := DEFAULT_RANGE g; MAX_RANGE := MAX_RANGE g;
             DEFAULT_HISTORY_RANGE := DEFAULT_HISTORY_RANGE g;
             EXPECTED_CREST_RANGE := EXPECTED_CREST_RANGE g |}).

Definition set_DEFAULT_RANGE (v : Z) : G unit := λ g,
  (Ok (), {| USER_AGENT := USER_AGENT g; USER_AGENT_SHORT := USER_AGENT_SHORT g;
             DEFAULT_RANGE := v; MAX_RANGE := MAX_RANGE g;
             DEFAULT_HISTORY_RANGE := DEFAULT_HISTORY_RANGE g;
             EXPECTED_CREST_RANGE := EXPECTED_CREST_RANGE g |}).

Definition set_MAX_RANGE (v : Z) : G unit := λ g,
  (Ok (), {| USER_AGENT := USER_AGENT g; USER_AGENT_SHORT := USER_AGENT_SHORT g;
             DEFAULT_RANGE := DEFAULT_RANGE g; MAX_RANGE := v;
             DEFAULT_HISTORY_RANGE := DEFAULT_HISTORY_RANGE g;
             EXPECTED_CREST_RANGE := EXPECTED_CREST_RANGE g |}).

(** [load_globals]: four assignments, each made as soon as its value is
    read. *)
Definition load_globals (config : option AppConfig) : G unit :=
  v ← eval (config_get (sections <$> config) "GLOBAL" GLOBAL "useragent");
  _ ← set_USER_AGENT v;
  v ← eval (config_get (sections <$> config) "GLOBAL" GLOBAL "useragent_short");
  _ ← set_USER_AGENT_SHORT v;
  v ← eval (crest_get config "prophet_range");
  v ← eval (int v);
  _ ← set_DEFAULT_RANGE v;
  v ← eval (crest_get config "prophet_max");
  v ← eval (int v);
  set_MAX_RANGE v.

(** A configuration for the whole package, and one whose [CREST] section
    lacks [prophet_max]. *)
Definition sample_app_config : AppConfig := {|
  sections := {|
    RESOURCES := RESOURCES sample_config;
    GLOBAL := Some {[ "useragent" := "prosper-api"; "useragent_short" := "prosper" ]};
    CACHING := CACHING sample_config |};
  CREST := Some {[ "prophet_range" := Some 30; "prophet_max" := Some 90 ]};
|}.

Definition short_app_config : AppConfig := {|
  sections := sections sample_app_config;
  CREST := Some {[ "prophet_range" := Some 30 ]};
|}.

(** ** More sample environments *)

(** The environment of the package as imported: [api_config.CONFIG] is
    [None]. *)
Definition imported_env : env := {|
  api_config_CONFIG := None;
  utcnow := utcnow sample_env;
  store := store sample_env;
  remote := remote sample_env;
  tinydb_find := None;
|}.


(** The keys on which [py_eq] is Python's [==] whatever the other side is:
    [None], booleans, integers and strings. *)
Definition scalar_key (v : pyval) : bool :=
  match v with
  | PNone | PBool _ | PInt _ | PStr _ => true
  | _ => false
  end.



(** The sample environment with cache files that do not hold JSON. *)
Definition corrupt_cache_env : env := {|
  api_config_CONFIG := None;
  utcnow := utcnow sample_env;
  store := λ _, Corrupt;
  remote := remote sample_env;
  tinydb_find := None;
|}.

(** ** Values and comparisons *)

Lemma pyval_ind_nested (P : pyval → Prop) :
  P PNone → (∀ b, P (PBool b)) → (∀ z, P (PInt z)) → (∀ x, P (PFloat x)) →
  (∀ s, P (PStr s)) →
  (∀ l, Forall P l → P (PList l)) →
  (∀ d, Forall (λ kv, P kv.2) d → P (PDict d)) →
  ∀ v, P v.
Proof.
  intros HN HB HI HF HS HL HD. fix IH 1. intros [ | b | z | x | s | l | d ].
  - exact HN.
  - apply HB.
  - apply HI.
  - apply HF.
  - apply HS.
  - apply HL. induction l as [ | v l IHl ]; constructor; [ apply IH | exact IHl ].
  - apply HD. induction d as [ | [k v] d IHd ]; constructor; [ apply IH | exact IHd ].
Qed.

Lemma pyval_eqb_eq (a b : pyval) : pyval_eqb a b = true ↔ a = b.
Proof.
  revert b. induction a as [ | x | x | x | x | l IHl | d IHd ] using pyval_ind_nested;
    intros [ | y | y | y | y | l' | d' ]; simpl; try (split; [ discriminate | congruence ]).
  - tauto.
  - rewrite Bool.eqb_true_iff. split; congruence.
  - rewrite Z.eqb_eq. split; congruence.
  - rewrite Z.eqb_eq. split; congruence.
  - rewrite String.eqb_eq. split; congruence.
  - revert l'. induction IHl as [ | v l Hv _ IH ]; intros [ | v' l' ].
    + tauto.
    + split; [ discriminate | congruence ].
    + split; [ discriminate | congruence ].
    + rewrite andb_true_iff, Hv, (IH l'). split.
      * intros [-> E]. by injection E as ->.
      * intros E. injection E as -> ->. done.
  - revert d'. induction IHd as [ | [k v] d Hv _ IH ]; intros [ | [k' v'] d' ].
    + tauto.
    + split; [ discriminate | congruence ].
    + split; [ discriminate | congruence ].
    + simpl in Hv. rewrite !andb_true_iff, String.eqb_eq, Hv, (IH d'). split.
      * intros [[-> ->] E]. by injection E as ->.
      * intros E. injection E as -> -> ->. done.
Qed.

Lemma py_eq_refl (a : pyval) : py_eq a a = true.
Proof.
  unfold py_eq. destruct (num_of a); [ apply Z.eqb_refl | by apply pyval_eqb_eq ].
Qed.

(** Two keys that compare equal select the same documents. *)
Lemma py_eq_same_class (k k' v : pyval) :
  py_eq k k' = true → py_eq v k' = py_eq v k.
Proof.
  unfold py_eq. intros H.
  destruct (num_of k) as [x|] eqn:Ek, (num_of k') as [y|] eqn:Ek'; try discriminate.
  - apply Z.eqb_eq in H as ->. done.
  - apply pyval_eqb_eq in H as ->. done.
Qed.

(** ** TinyDB tables *)

(** The two fields an update writes leave [index_key] alone. *)
Lemma update_fields_lookup (now : time) (payload : pyval) (d : gmap string pyval)
    (field : string) :
  field ≠ "cache_datetime" → field ≠ "payload" →
  (({[ "cache_datetime" := PFloat now; "payload" := payload ]} : gmap string pyval) ∪ d)
    !! field = d !! field.
Proof.
  intros H1 H2. rewrite lookup_union_r; [ done | ].
  rewrite lookup_insert_ne by done. by rewrite lookup_singleton_ne.
Qed.

Lemma update_fields_key (now : time) (payload k : pyval) (d : gmap string pyval) :
  field_eq "index_key" k
    (({[ "cache_datetime" := PFloat now; "payload" := payload ]} : gmap string pyval) ∪ d)
  = field_eq "index_key" k d.
Proof. unfold field_eq. by rewrite update_fields_lookup. Qed.

Lemma search_app (cond : gmap string pyval → bool) (t1 t2 : table) :
  search cond (t1 ++ t2) = (search cond t1 ++ search cond t2)%list.
Proof. apply List.filter_app. Qed.

(** A search after an update whose fields do not touch what the test reads
    finds the updated versions of the same documents. *)
Lemma search_update (fields : gmap string pyval) (cond sel : gmap string pyval → bool)
    (t : table) :
  (∀ d, sel (fields ∪ d) = sel d) →
  search sel (update fields cond t)
  = ((λ d, if cond d then fields ∪ d else d) <$> search sel t).
Proof.
  intros Hsel. unfold search, update.
  induction t as [ | d t IH ]; [ done | ]. csimpl.
  assert (sel (if cond d then fields ∪ d else d) = sel d) as ->.
  { destruct (cond d); [ apply Hsel | done ]. }
  destruct (sel d); csimpl; by rewrite IH.
Qed.

Lemma nonempty_length {A} (l : list A) : nonempty l = false ↔ l = [].
Proof. destruct l; simpl; split; congruence. Qed.

(** ** [write_cache_entry] *)

Section Write.
Context (E : env).

(** The table [write_cache_entry] leaves behind, on a file in order. *)
Lemma write_cache_entry_healthy (h : string) (k payload : pyval) (w : world) :
  store E h = Healthy →
  write_cache_entry E h k payload w =
    (Ok (),
     {| tables :=
          <[ h :=
             if nonempty (search (field_eq "index_key" k) (table_of w h)) then
               update {[ "cache_datetime" := PFloat (utcnow E (ticks w));
                         "payload" := payload ]}
                      (field_eq "index_key" k) (table_of w h)
             else
               insert {[ "cache_datetime" := PFloat (utcnow E (ticks w));
                         "payload" := payload; "index_key" := k ]}
                      (table_of w h) ]> (tables w);
        sent := sent w;
        ticks := S (ticks w) |}).
Proof.
  intros Hs. unfold write_cache_entry, db_search, db_update, db_insert,
    read_table, write_table, utcnow_timestamp, mbind, M_bind, mret, M_ret.
  rewrite Hs. simpl.
  destruct (nonempty _); simpl; try rewrite Hs; done.
Qed.

Lemma table_of_write (h : string) (t : table) (tabs : gmap string table)
    (s : list url) (n : nat) :
  table_of {| tables := <[h := t]> tabs; sent := s; ticks := n |} h = t.
Proof. unfold table_of. simpl. by rewrite lookup_insert_eq. Qed.

End Write.

(** An update keeps the invariant, an insert of a key that was not found too. *)
Lemma unique_keys_update (now : time) (payload k : pyval) (t : table) :
  unique_keys t →
  unique_keys (update {[ "cache_datetime" := PFloat now; "payload" := payload ]}
                 (field_eq "index_key" k) t).
Proof.
  intros Hu k'. rewrite search_update by (intros; apply update_fields_key).
  rewrite length_fmap. apply Hu.
Qed.

Lemma unique_keys_insert (now : time) (payload k : pyval) (t : table) :
  unique_keys t →
  search (field_eq "index_key" k) t = [] →
  unique_keys (insert {[ "cache_datetime" := PFloat now; "payload" := payload;
                         "index_key" := k ]} t).
Proof.
  intros Hu Hnone k'. unfold insert. rewrite search_app, length_app. simpl.
  unfold field_eq at 2.
  rewrite lookup_insert_ne by done. rewrite lookup_insert_ne by done.
  rewrite lookup_singleton_eq.
  destruct (py_eq k k') eqn:Hk; simpl; [ | specialize (Hu k'); lia ].
  assert (search (field_eq "index_key" k') t = search (field_eq "index_key" k) t) as ->.
  { unfold search. apply List.filter_ext. intros d. unfold field_eq.
    destruct (d !! "index_key"); [ | done ]. by apply py_eq_same_class. }
  rewrite Hnone. simpl. lia.
Qed.

(** What one write leaves under its key, on a table with unique keys: a single
    entry, holding the payload and the time of the write. *)
Lemma upsert_entry (now : time) (payload k : pyval) (t : table) :
  unique_keys t →
  let t' :=
    if nonempty (search (field_eq "index_key" k) t) then
      update {[ "cache_datetime" := PFloat now; "payload" := payload ]}
             (field_eq "index_key" k) t
    else
      insert {[ "cache_datetime" := PFloat now; "payload" := payload;
                "index_key" := k ]} t in
  unique_keys t'
  ∧ ∃ d, search (field_eq "index_key" k) t' = [d]
       ∧ d !! "payload" = Some payload
       ∧ d !! "cache_datetime" = Some (PFloat now).
Proof.
  intros Hu. simpl.
  destruct (search (field_eq "index_key" k) t) as [ | d0 found ] eqn:Hfound; simpl.
  - split; [ by apply unique_keys_insert | ].
    eexists. unfold insert. rewrite search_app, Hfound. simpl. unfold field_eq at 1.
    rewrite lookup_insert_ne by done. rewrite lookup_insert_ne by done.
    rewrite lookup_singleton_eq, py_eq_refl. split; [ reflexivity | ].
    split; [ by rewrite lookup_insert_ne, lookup_insert_eq | by rewrite lookup_insert_eq ].
  - split; [ by apply unique_keys_update | ].
    rewrite search_update by (intros; apply update_fields_key). rewrite Hfound.
    assert (found = []) as ->.
    { specialize (Hu k). rewrite Hfound in Hu. simpl in Hu.
      destruct found; [ done | simpl in Hu; lia ]. }
    assert (field_eq "index_key" k d0 = true) as Hd0.
    { assert (List.In d0 (search (field_eq "index_key" k) t)) as Hin
        by (rewrite Hfound; by left).
      unfold search in Hin. by apply List.filter_In in Hin as [_ ?]. }
    simpl. rewrite Hd0. eexists. split; [ reflexivity | ].
    split.
    + apply lookup_union_Some_l. by rewrite lookup_insert_ne, lookup_singleton_eq.
    + apply lookup_union_Some_l. by rewrite lookup_insert_eq.
Qed.

(** ** The claims on the cache writes and on the resolver *)

(** C4.  Upsert invariant: on a table with at most one entry per [index_key],
    [write_cache_entry] keeps that invariant, and after two successive writes
    to the same key the table holds a single entry under it, with the payload
    and the timestamp of the second write. *)
Theorem write_cache_entry_upsert (E : env) (h : string) (k p1 p2 : pyval) (w : world) :
  store E h = Healthy →
  unique_keys (table_of w h) →
  let r1 := write_cache_entry E h k p1 w in
  let r2 := write_cache_entry E h k p2 r1.2 in
  r1.1 = Ok () ∧ r2.1 = Ok ()
  ∧ unique_keys (table_of r1.2 h)
  ∧ unique_keys (table_of r2.2 h)
  ∧ ∃ d, search (field_eq "index_key" k) (table_of r2.2 h) = [d]
       ∧ d !! "payload" = Some p2
       ∧ d !! "cache_datetime" = Some (PFloat (utcnow E (S (ticks w)))).
Proof.
  intros Hs Hu. simpl.
  rewrite (write_cache_entry_healthy E h k p1 w Hs). simpl.
  rewrite (write_cache_entry_healthy E h k p2 _ Hs). simpl.
  rewrite !table_of_write.
  destruct (upsert_entry (utcnow E (ticks w)) p1 k (table_of w h) Hu) as [Hu1 _].
  simpl in Hu1.
  destruct (upsert_entry (utcnow E (S (ticks w))) p2 k _ Hu1) as [Hu2 Hd].
  simpl in Hu2, Hd. done.
Qed.

Lemma write_cache_entry_upsert_witness :
  store sample_env "cache/inventory_types.json" = Healthy
  ∧ unique_keys (table_of cached_world "cache/inventory_types.json")
  ∧ ∃ d, search (field_eq "index_key" (PInt 587))
           (table_of
              (write_cache_entry sample_env "cache/inventory_types.json" (PInt 587) rifter
                 (write_cache_entry sample_env "cache/inventory_types.json" (PInt 587)
                    tritanium cached_world).2).2
              "cache/inventory_types.json") = [d]
       ∧ d !! "payload" = Some rifter
       ∧ d !! "cache_datetime" = Some (PFloat 1001).
Proof.
  assert (unique_keys (table_of cached_world "cache/inventory_types.json")) as Hu.
  { intros k. unfold table_of, cached_world. simpl. rewrite lookup_singleton_eq. simpl.
    destruct (field_eq "index_key" k old_entry); simpl; lia. }
  split; [ reflexivity | ]. split; [ exact Hu | ].
  apply (write_cache_entry_upsert sample_env "cache/inventory_types.json" (PInt 587)
           tritanium rifter cached_world eq_refl Hu).
Defined.

(** C10.  Frame of an update: when the key is already in the table,
    [write_cache_entry] keeps every document in its place, changes nothing but
    [cache_datetime] and [payload], and those only in the documents stored
    under the key; [index_key] is as it was, and the key still finds its
    entry. *)
Theorem write_cache_entry_update_frame (E : env) (h : string) (k payload : pyval)
    (w : world) :
  store E h = Healthy →
  search (field_eq "index_key" k) (table_of w h) ≠ [] →
  let t := table_of w h in
  let t' := table_of (write_cache_entry E h k payload w).2 h in
  (write_cache_entry E h k payload w).1 = Ok ()
  ∧ length t' = length t
  ∧ (∀ i d, t !! i = Some d →
       ∃ d', t' !! i = Some d'
         ∧ d' !! "index_key" = d !! "index_key"
         ∧ (∀ field, field ≠ "cache_datetime" → field ≠ "payload" →
              d' !! field = d !! field)
         ∧ (field_eq "index_key" k d = true →
              d' !! "cache_datetime" = Some (PFloat (utcnow E (ticks w)))
              ∧ d' !! "payload" = Some payload)
         ∧ (field_eq "index_key" k d = false → d' = d))
  ∧ length (search (field_eq "index_key" k) t')
    = length (search (field_eq "index_key" k) t)
  ∧ search (field_eq "index_key" k) t' ≠ [].
Proof.
  intros Hs Hfound. simpl.
  rewrite (write_cache_entry_healthy E h k payload w Hs). simpl.
  rewrite table_of_write.
  destruct (nonempty (search (field_eq "index_key" k) (table_of w h))) eqn:Hne.
  2: { apply nonempty_length in Hne. done. }
  assert (length (search (field_eq "index_key" k)
            (update {[ "cache_datetime" := PFloat (utcnow E (ticks w));
                       "payload" := payload ]} (field_eq "index_key" k) (table_of w h)))
          = length (search (field_eq "index_key" k) (table_of w h))) as Hlen.
  { rewrite search_update by (intros; apply update_fields_key). apply length_fmap. }
  split; [ done | ]. split; [ apply length_map | ]. split; [ | split; [ exact Hlen | ] ].
  - intros i d Hi. unfold update. rewrite list_lookup_fmap, Hi. simpl.
    eexists. split; [ reflexivity | ].
    destruct (field_eq "index_key" k d) eqn:Hd.
    + split; [ by apply update_fields_lookup | ].
      split; [ intros; by apply update_fields_lookup | ].
      split; [ | discriminate ]. intros _. split.
      * apply lookup_union_Some_l. by rewrite lookup_insert_eq.
      * apply lookup_union_Some_l. by rewrite lookup_insert_ne, lookup_singleton_eq.
    + split; [ done | ]. split; [ done | ]. split; [ discriminate | done ].
  - intros Hnil. rewrite Hnil in Hlen. simpl in Hlen.
    destruct (search (field_eq "index_key" k) (table_of w h)); [ done | discriminate ].
Qed.

Lemma write_cache_entry_update_frame_witness :
  store sample_env "cache/inventory_types.json" = Healthy
  ∧ search (field_eq "index_key" (PInt 587))
      (table_of cached_world "cache/inventory_types.json") ≠ []
  ∧ search (field_eq "index_key" (PInt 587))
      (table_of
         (write_cache_entry sample_env "cache/inventory_types.json" (PInt 587) rifter
            cached_world).2 "cache/inventory_types.json") ≠ [].
Proof.
  assert (search (field_eq "index_key" (PInt 587))
            (table_of cached_world "cache/inventory_types.json") ≠ []) as Hfound.
  { unfold table_of, cached_world. simpl. rewrite lookup_singleton_eq. simpl.
    unfold field_eq, old_entry.
    rewrite lookup_insert_ne by done. rewrite lookup_insert_ne by done.
    rewrite lookup_singleton_eq. simpl. discriminate. }
  split; [ reflexivity | ]. split; [ exact Hfound | ].
  apply (write_cache_entry_update_frame sample_env "cache/inventory_types.json"
           (PInt 587) rifter cached_world eq_refl Hfound).
Defined.

(** C9.  The resolver: [inventory_types] maps the identifier to [type_id],
    [map_regions] maps it to [region_id], every other endpoint name raises
    [UnsupportedCrestEndpoint], and the world is as it was. *)
Theorem endpoint_to_kwarg_mapping (endpoint_name : string) (type_id : pyval)
    (w : world) :
  endpoint_to_kwarg "inventory_types" type_id = Ok {[ "type_id" := type_id ]}
  ∧ endpoint_to_kwarg "map_regions" type_id = Ok {[ "region_id" := type_id ]}
  ∧ endpoint_to_kwarg "inventory_types" (PInt 587) = Ok {[ "type_id" := PInt 587 ]}
  ∧ endpoint_to_kwarg "map_regions" (PInt 10000002)
    = Ok {[ "region_id" := PInt 10000002 ]}
  ∧ (endpoint_name ≠ "inventory_types" → endpoint_name ≠ "map_regions" →
       endpoint_to_kwarg endpoint_name type_id
       = Raise (UnsupportedCrestEndpoint ("No configuration for " +:+ endpoint_name)))
  ∧ lift (endpoint_to_kwarg endpoint_name type_id) w
    = (endpoint_to_kwarg endpoint_name type_id, w).
Proof.
  repeat split.
  intros H1 H2. unfold endpoint_to_kwarg.
  apply String.eqb_neq in H1 as ->. apply String.eqb_neq in H2 as ->. done.
Qed.

Lemma endpoint_to_kwarg_mapping_witness :
  "not_a_real_endpoint" ≠ "inventory_types"
  ∧ "not_a_real_endpoint" ≠ "map_regions"
  ∧ endpoint_to_kwarg "not_a_real_endpoint" (PInt 123)
    = Raise (UnsupportedCrestEndpoint "No configuration for not_a_real_endpoint").
Proof.
  split; [ discriminate | ]. split; [ discriminate | ].
  destruct (endpoint_to_kwarg_mapping "not_a_real_endpoint" (PInt 123) empty_world)
    as (_ & _ & _ & _ & Hunknown & _).
  apply Hunknown; discriminate.
Defined.

(** ** The cache lookup of [validate_id] *)

Section Lookup.
Context (E : env).

(** The argument of [find] cannot be built: [cache_time & ...] is a float on
    the left of [&]. *)
Lemma find_argument_raises (cutoff : time) (type_id : pyval) :
  find_argument cutoff type_id
  = Raise (TypeError "unsupported operand type(s) for &").
Proof. reflexivity. Qed.

(** Whatever [find] is, the lookup raises and the world is as it was. *)
Lemma db_find_raises (h : string) (cutoff : time) (type_id : pyval) (w : world) :
  db_find E h cutoff type_id w
  = (Raise match tinydb_find E with
            | Some _ => TypeError "unsupported operand type(s) for &"
            | None => AttributeError "Table" "find"
            end, w).
Proof. unfold db_find. destruct (tinydb_find E); reflexivity. Qed.

(** The [try] block never binds [cache_val], and touches neither the tables
    nor the network. *)
Lemma cache_lookup_unbound (endpoint_name : string) (type_id : pyval)
    (config : option ConfigParser) (w : world) :
  cache_val (cache_lookup E endpoint_name type_id config w).1 = None
  ∧ tables (cache_lookup E endpoint_name type_id config w).2 = tables w
  ∧ sent (cache_lookup E endpoint_name type_id config w).2 = sent w.
Proof.
  unfold cache_lookup, setup_cache_file, utcnow_timestamp, mbind, M_bind, mret,
    M_ret, raise, lift.
  destruct (store E _); simpl; try done.
  all: destruct (config_get config "CACHING" CACHING "sde_cache_limit") as [limit|];
    simpl; try done.
  all: destruct (int limit); simpl; try done.
  all: rewrite db_find_raises; done.
Qed.

(** Without [cache_buster], [validate_id] raises [UnboundLocalError] at
    [if cache_val:]. *)
Lemma validate_id_without_bypass (endpoint_name : string) (type_id : pyval)
    (config : option ConfigParser) (w : world) :
  (validate_id E endpoint_name type_id false config w).1
  = Raise (UnboundLocalError "cache_val")
  ∧ tables (validate_id E endpoint_name type_id false config w).2 = tables w
  ∧ sent (validate_id E endpoint_name type_id false config w).2 = sent w.
Proof.
  unfold validate_id. simpl.
  destruct (cache_lookup_unbound endpoint_name type_id config w) as (Hv & Ht & Hs).
  destruct (cache_lookup E endpoint_name type_id config w) as [vars w1].
  simpl in *. rewrite Hv. done.
Qed.

(** ** The remote fetch *)

(** [fetch_crest_endpoint] either raises before any request is sent, or sends
    one request and makes of the answer what its last lines say. *)
Lemma fetch_crest_endpoint_cases (endpoint_name crest_base : string)
    (config : option ConfigParser) (kwargs : gmap string pyval) (w : world) :
  (∃ e, fetch_crest_endpoint E endpoint_name crest_base config kwargs w = (Raise e, w))
  ∨ (∃ u, fetch_crest_endpoint E endpoint_name crest_base config kwargs w
          = (match remote E u with
             | NoConnection => Raise ConnectionError
             | Response status_code body =>
                 match raise_for_status (status_code, body) with
                 | Raise e => Raise e
                 | Ok _ => json (status_code, body)
                 end
             end,
             {| tables := tables w; sent := sent w ++ [u]; ticks := ticks w |})).
Proof.
  unfold fetch_crest_endpoint, requests_get, mbind, M_bind, lift.
  destruct (config_get config "RESOURCES" RESOURCES endpoint_name) as [template|e].
  2: { left. destruct e; eauto. }
  destruct (format (Lit crest_base :: template) kwargs) as [u|e].
  2: { left. destruct e; eauto. }
  destruct (config_get config "GLOBAL" GLOBAL "useragent") as [useragent|e].
  2: { left. eauto. }
  right. exists u. destruct (remote E u) as [ | status_code body ]; [ done | ].
  destruct (raise_for_status (status_code, body)); done.
Qed.

(** On the path that skips the cache, [db_handle] is unbound at the write:
    the [UnboundLocalError] is swallowed with the other write errors, and the
    function is the fetch with its errors wrapped. *)
Lemma request_and_update_no_handle (endpoint_name : string) (type_id : pyval)
    (w : world) :
  request_and_update E {| db_handle := None; cache_val := None |} endpoint_name
    type_id w
  = match (kwarg_pair ← lift (endpoint_to_kwarg endpoint_name type_id);
           fetch_crest_endpoint E endpoint_name CREST_BASE (api_config_CONFIG E)
             kwarg_pair) w with
    | (Ok type_info, w') => (Ok type_info, w')
    | (Raise e, w') => (Raise (IDValidationError 404 endpoint_name type_id e), w')
    end.
Proof.
  unfold request_and_update, try_except, mbind at 1 2, M_bind at 1 2. simpl.
  destruct ((kwarg_pair ← lift (endpoint_to_kwarg endpoint_name type_id);
             fetch_crest_endpoint E endpoint_name CREST_BASE (api_config_CONFIG E)
               kwarg_pair) w) as [[type_info|e] w']; reflexivity.
Qed.

(** [validate_id] never changes a cache table. *)
Lemma validate_id_tables (endpoint_name : string) (type_id : pyval)
    (cache_buster : bool) (config : option ConfigParser) (w : world) :
  tables (validate_id E endpoint_name type_id cache_buster config w).2 = tables w.
Proof.
  destruct cache_buster; [ | apply validate_id_without_bypass ].
  unfold validate_id. simpl. rewrite request_and_update_no_handle.
  unfold mbind, M_bind, lift.
  destruct (endpoint_to_kwarg endpoint_name type_id) as [kwarg_pair|e]; [ | done ].
  destruct (fetch_crest_endpoint_cases endpoint_name CREST_BASE (api_config_CONFIG E)
              kwarg_pair w) as [[e ->] | [u ->]]; [ done | ].
  destruct (remote E u) as [ | status_code body ]; [ done | ].
  destruct (raise_for_status (status_code, body)); [ | done ].
  destruct (json (status_code, body)); done.
Qed.

(** With [cache_buster], an endpoint the resolver does not know raises
    [IDValidationError] with the resolver's error as its context, and the
    world is as it was. *)
Lemma validate_id_bypass_unknown_endpoint (endpoint_name : string) (type_id : pyval)
    (config : option ConfigParser) (w : world) :
  endpoint_name ≠ "inventory_types" → endpoint_name ≠ "map_regions" →
  validate_id E endpoint_name type_id true config w
  = (Raise (IDValidationError 404 endpoint_name type_id
              (UnsupportedCrestEndpoint ("No configuration for " +:+ endpoint_name))),
     w).
Proof.
  intros H1 H2. unfold validate_id. simpl. rewrite request_and_update_no_handle.
  unfold mbind, M_bind, lift, endpoint_to_kwarg.
  apply String.eqb_neq in H1 as ->. apply String.eqb_neq in H2 as ->. done.
Qed.

(** While [api_config.CONFIG] is [None] in the defaults, the fetch stops at
    [config.get] and no call of [validate_id] returns. *)
Lemma validate_id_default_config (endpoint_name : string) (type_id : pyval)
    (cache_buster : bool) (config : option ConfigParser) (w : world) :
  api_config_CONFIG E = None →
  ∃ e, (validate_id E endpoint_name type_id cache_buster config w).1 = Raise e.
Proof.
  intros Hnone. destruct cache_buster.
  2: { eexists. apply validate_id_without_bypass. }
  unfold validate_id. simpl. rewrite request_and_update_no_handle.
  unfold mbind, M_bind, lift, fetch_crest_endpoint, mbind, M_bind, lift.
  rewrite Hnone. simpl.
  destruct (endpoint_to_kwarg endpoint_name type_id); simpl; eauto.
Qed.

End Lookup.

(** ** The claims on the validation pipeline *)

(** Two calls in succession without [cache_buster]: the first raises
    [UnboundLocalError] at [if cache_val:], and so does the second; neither
    returns a payload, from the cache or from the remote service, and neither
    sends a request. *)
Lemma validate_id_twice (E : env) (endpoint_name : string) (type_id : pyval)
    (config : option ConfigParser) (w : world) :
  let r1 := validate_id E endpoint_name type_id false config w in
  let r2 := validate_id E endpoint_name type_id false config r1.2 in
  r1.1 = Raise (UnboundLocalError "cache_val")
  ∧ r2.1 = Raise (UnboundLocalError "cache_val")
  ∧ sent r2.2 = sent w
  ∧ tables r2.2 = tables w.
Proof.
  simpl.
  destruct (validate_id_without_bypass E endpoint_name type_id config w)
    as (H1 & Ht1 & Hs1).
  destruct (validate_id_without_bypass E endpoint_name type_id config
              (validate_id E endpoint_name type_id false config w).2)
    as (H2 & Ht2 & Hs2).
  rewrite H1, H2, Hs2, Hs1, Ht2, Ht1. done.
Qed.

(** C2.  The cache lookup of [validate_id] raises on every table, the empty
    one included: its argument cannot be built, and a TinyDB handle has no
    [find]; it never answers that nothing was found. *)
Theorem cache_lookup_raises (E : env) (h : string) (cutoff : time) (type_id : pyval)
    (w : world) :
  find_argument cutoff type_id = Raise (TypeError "unsupported operand type(s) for &")
  ∧ (∃ e, db_find E h cutoff type_id w = (Raise e, w))
  ∧ db_find sample_env "cache/inventory_types.json" (cache_time 1000 3600) (PInt 587)
      empty_world
    = (Raise (AttributeError "Table" "find"), empty_world).
Proof.
  split; [ reflexivity | ]. split; [ | reflexivity ].
  rewrite db_find_raises. eauto.
Qed.

(** C3.  An entry written ten seconds ago, with a cache limit of an hour, is
    not treated as fresh: the lookup leaves [cache_val] unbound and the call
    raises [UnboundLocalError], as it does for every entry of every age. *)
Theorem validate_id_fresh_entry_not_served :
  old_entry !! "cache_datetime" = Some (PFloat 990)
  ∧ utcnow imported_env 0 = 1000
  ∧ (1000 - 990 < 3600)%Z
  ∧ cache_val (cache_lookup imported_env "inventory_types" (PInt 587)
                 (Some sample_config) cached_world).1 = None
  ∧ validate_id imported_env "inventory_types" (PInt 587) false (Some sample_config)
      cached_world
    = (Raise (UnboundLocalError "cache_val"),
       {| tables := tables cached_world; sent := []; ticks := 1 |}).
Proof. repeat split. Qed.

(** C5.  With the cache directory out of reach, the read step is not taken
    for a miss: the call raises [UnboundLocalError] and no request is sent.
    (With [cache_buster], the failed write is swallowed and the fetched data
    is returned.) *)
Theorem validate_id_cache_out_of_reach :
  validate_id offline_cache_env "inventory_types" (PInt 587) false
    (Some sample_config) empty_world
  = (Raise (UnboundLocalError "cache_val"), empty_world)
  ∧ validate_id offline_cache_env "inventory_types" (PInt 587) true
      (Some sample_config) empty_world
    = (Ok rifter, {| tables := ∅; sent := [types_url (PInt 587)]; ticks := 0 |}).
Proof. split; reflexivity. Qed.

(** C6.  An unknown endpoint without [cache_buster] raises
    [UnboundLocalError], not [IDValidationError]; with [cache_buster] it
    raises the [IDValidationError] whose context is the
    [UnsupportedCrestEndpoint].  In both calls no request is sent and no cache
    table changes. *)
Theorem validate_id_unknown_endpoint :
  validate_id sample_env "not_a_real_endpoint" (PInt 123) false
    (Some sample_config) empty_world
  = (Raise (UnboundLocalError "cache_val"), {| tables := ∅; sent := []; ticks := 1 |})
  ∧ validate_id sample_env "not_a_real_endpoint" (PInt 123) true
      (Some sample_config) empty_world
    = (Raise (IDValidationError 404 "not_a_real_endpoint" (PInt 123)
                (UnsupportedCrestEndpoint
                   "No configuration for not_a_real_endpoint")),
       empty_world).
Proof. split; reflexivity. Qed.

(** C7.  The call of the specification, [validate_id('inventory_types', 999)]
    with its defaults and a remote service that answers 404: it raises
    [UnboundLocalError], not [IDValidationError], before any request; the
    cache is as it was.  (With [cache_buster] the same call raises the
    [IDValidationError], at [config.get], without a request either.) *)
Theorem validate_id_remote_failure_default_call :
  remote imported_env (types_url (PInt 999)) = Response 404 None
  ∧ validate_id imported_env "inventory_types" (PInt 999) false None empty_world
    = (Raise (UnboundLocalError "cache_val"),
       {| tables := ∅; sent := []; ticks := 1 |})
  ∧ validate_id imported_env "inventory_types" (PInt 999) true None empty_world
    = (Raise (IDValidationError 404 "inventory_types" (PInt 999)
                (AttributeError "NoneType" "get")), empty_world).
Proof. repeat split. Qed.

(** C8.  With [cache_buster] and a fresh entry in the cache, the request is
    sent and its result returned, and the cache keeps the entry it had: the
    fetched result is not written. *)
Theorem validate_id_bypass_keeps_entry :
  fresh_query (cache_time 1000 3600) old_entry = true
  ∧ validate_id sample_env "inventory_types" (PInt 587) true (Some sample_config)
      cached_world
    = (Ok rifter,
       {| tables := {[ "cache/inventory_types.json" := [old_entry] ]};
          sent := [types_url (PInt 587)]; ticks := 0 |})
  ∧ old_entry !! "payload" = Some (PStr "stale copy").
Proof. repeat split. Qed.

(** ** More on [write_cache_entry] and [setup_cache_file] *)

(** A stored key that compares equal to two keys makes them compare equal. *)
Lemma py_eq_common (v k k' : pyval) :
  py_eq v k = true → py_eq v k' = true → py_eq k k' = true.
Proof.
  unfold py_eq.
  destruct (num_of v) as [x|], (num_of k) as [y|] eqn:Ek, (num_of k') as [z|] eqn:Ek';
    try discriminate.
  - intros H1 H2. apply Z.eqb_eq in H1, H2. apply Z.eqb_eq. congruence.
  - intros H1 H2. apply pyval_eqb_eq in H1, H2. subst. by apply pyval_eqb_eq.
Qed.

Lemma field_eq_common (k k' : pyval) (d : gmap string pyval) :
  py_eq k k' = false → field_eq "index_key" k' d = true →
  field_eq "index_key" k d = false.
Proof.
  unfold field_eq. destruct (d !! "index_key") as [v|]; [ | done ].
  intros Hne Hk'. destruct (py_eq v k) eqn:Hk; [ | done ].
  by rewrite (py_eq_common v k k' Hk Hk') in Hne.
Qed.

Lemma search_In (cond : gmap string pyval → bool) (t : table) (d : gmap string pyval) :
  d ∈ search cond t ↔ d ∈ t ∧ cond d = true.
Proof. unfold search. rewrite !list_elem_of_In. apply List.filter_In. Qed.

Lemma search_nil (cond : gmap string pyval → bool) (t : table) (d : gmap string pyval) :
  search cond t = [] → d ∈ t → cond d = false.
Proof.
  intros Hnil Hd. destruct (cond d) eqn:Hc; [ | done ].
  assert (d ∈ search cond t) as Hin by by apply search_In.
  rewrite Hnil in Hin. by apply not_elem_of_nil in Hin.
Qed.

Lemma field_eq_new_entry (now : time) (payload k k' : pyval) :
  field_eq "index_key" k'
    ({[ "cache_datetime" := PFloat now; "payload" := payload; "index_key" := k ]}
       : gmap string pyval)
  = py_eq k k'.
Proof.
  unfold field_eq. rewrite lookup_insert_ne by done. rewrite lookup_insert_ne by done.
  by rewrite lookup_singleton_eq.
Qed.

(** X1.  Write, then search: after a write on a file in order, the search the
    module uses finds at least one entry under the key, and every entry it
    finds holds the payload and the time of the write, whatever the table
    held before. *)
Theorem write_cache_entry_then_search (E : env) (h : string) (k payload : pyval)
    (w : world) :
  store E h = Healthy →
  ∃ found,
    db_search E h (field_eq "index_key" k) (write_cache_entry E h k payload w).2
    = (Ok found, (write_cache_entry E h k payload w).2)
    ∧ found ≠ []
    ∧ ∀ d, d ∈ found →
        d !! "payload" = Some payload
        ∧ d !! "cache_datetime" = Some (PFloat (utcnow E (ticks w))).
Proof.
  intros Hs. rewrite (write_cache_entry_healthy E h k payload w Hs). simpl.
  unfold db_search, read_table, mbind, M_bind, mret, M_ret. rewrite Hs.
  rewrite table_of_write. eexists. split; [ reflexivity | ].
  destruct (search (field_eq "index_key" k) (table_of w h)) as [ | d0 rest ] eqn:Hfound;
    simpl.
  - unfold insert. rewrite search_app, Hfound. simpl.
    rewrite field_eq_new_entry, py_eq_refl. split; [ done | ].
    intros d Hd. apply list_elem_of_singleton in Hd as ->.
    split; [ by rewrite lookup_insert_ne, lookup_insert_eq | by rewrite lookup_insert_eq ].
  - rewrite search_update by (intros; apply update_fields_key). rewrite Hfound.
    split; [ done | ]. intros d Hd. apply list_elem_of_fmap in Hd as (d1 & -> & Hd1).
    assert (field_eq "index_key" k d1 = true) as ->.
    { rewrite <- Hfound in Hd1. by apply search_In in Hd1 as [_ ?]. }
    split.
    + apply lookup_union_Some_l. by rewrite lookup_insert_ne, lookup_singleton_eq.
    + apply lookup_union_Some_l. by rewrite lookup_insert_eq.
Qed.

Lemma write_cache_entry_then_search_witness :
  store sample_env "cache/inventory_types.json" = Healthy
  ∧ ∃ found,
      db_search sample_env "cache/inventory_types.json"
        (field_eq "index_key" (PInt 587))
        (write_cache_entry sample_env "cache/inventory_types.json" (PInt 587) rifter
           cached_world).2
      = (Ok found,
         (write_cache_entry sample_env "cache/inventory_types.json" (PInt 587) rifter
            cached_world).2)
      ∧ found ≠ []
      ∧ ∀ d, d ∈ found →
          d !! "payload" = Some rifter
          ∧ d !! "cache_datetime" = Some (PFloat (utcnow sample_env (ticks cached_world))).
Proof.
  split; [ reflexivity | ].
  apply (write_cache_entry_then_search sample_env "cache/inventory_types.json"
           (PInt 587) rifter cached_world eq_refl).
Defined.

(** X2.  A write under a scalar key ([None], a boolean, an integer or a
    string) never removes or re-keys an entry: the table grows by one
    document when the key was not found and keeps its length otherwise, every
    document stays at its index with all its fields but [cache_datetime] and
    [payload], and a document stored under another key is not changed at
    all. *)
Theorem write_cache_entry_keeps_entries (E : env) (h : string) (k payload : pyval)
    (w : world) :
  store E h = Healthy →
  scalar_key k = true →
  let t := table_of w h in
  let t' := table_of (write_cache_entry E h k payload w).2 h in
  length t'
  = (length t + if nonempty (search (field_eq "index_key" k) t) then 0 else 1)%nat
  ∧ ∀ i d, t !! i = Some d →
      ∃ d', t' !! i = Some d'
        ∧ (∀ field, field ≠ "cache_datetime" → field ≠ "payload" →
             d' !! field = d !! field)
        ∧ (field_eq "index_key" k d = false → d' = d).
Proof.
  intros Hs _. simpl. rewrite (write_cache_entry_healthy E h k payload w Hs). simpl.
  rewrite table_of_write.
  destruct (nonempty (search (field_eq "index_key" k) (table_of w h))).
  - split; [ unfold update; rewrite length_fmap; lia | ].
    intros i d Hi. unfold update. rewrite list_lookup_fmap, Hi. simpl.
    eexists. split; [ reflexivity | ].
    destruct (field_eq "index_key" k d); [ | done ].
    split; [ intros; by apply update_fields_lookup | discriminate ].
  - split; [ unfold insert; rewrite length_app; simpl; lia | ].
    intros i d Hi. exists d. split; [ | done ].
    unfold insert. rewrite lookup_app_l; [ done | by apply lookup_lt_Some in Hi ].
Qed.

Lemma write_cache_entry_keeps_entries_witness :
  store sample_env "cache/inventory_types.json" = Healthy
  ∧ scalar_key (PInt 34) = true
  ∧ length (table_of (write_cache_entry sample_env "cache/inventory_types.json"
                        (PInt 34) tritanium cached_world).2
              "cache/inventory_types.json") = 2%nat.
Proof.
  split; [ reflexivity | ]. split; [ reflexivity | ].
  apply (write_cache_entry_keeps_entries sample_env "cache/inventory_types.json"
           (PInt 34) tritanium cached_world eq_refl eq_refl).
Defined.

(** X3.  For scalar keys, a write under one key leaves the entries found
    under every key that does not compare equal to it as they were. *)
Theorem write_cache_entry_other_keys (E : env) (h : string) (k k' payload : pyval)
    (w : world) :
  store E h = Healthy →
  scalar_key k = true → scalar_key k' = true →
  py_eq k k' = false →
  search (field_eq "index_key" k') (table_of (write_cache_entry E h k payload w).2 h)
  = search (field_eq "index_key" k') (table_of w h).
Proof.
  intros Hs _ _ Hne. rewrite (write_cache_entry_healthy E h k payload w Hs). simpl.
  rewrite table_of_write.
  destruct (nonempty (search (field_eq "index_key" k) (table_of w h))).
  - unfold search, update. induction (table_of w h) as [ | d t IH ]; [ done | ]. csimpl.
    destruct (field_eq "index_key" k' d) eqn:Hd.
    + rewrite (field_eq_common k k' d Hne Hd), Hd. by rewrite IH.
    + assert (field_eq "index_key" k'
                (if field_eq "index_key" k d
                 then ({[ "cache_datetime" := PFloat (utcnow E (ticks w));
                          "payload" := payload ]} : gmap string pyval) ∪ d
                 else d) = false) as ->; [ | exact IH ].
      destruct (field_eq "index_key" k d); [ by rewrite update_fields_key | done ].
  - unfold insert. rewrite search_app. simpl.
    rewrite field_eq_new_entry, Hne. apply app_nil_r.
Qed.

Lemma write_cache_entry_other_keys_witness :
  store sample_env "cache/inventory_types.json" = Healthy
  ∧ scalar_key (PInt 34) = true ∧ scalar_key (PInt 587) = true
  ∧ py_eq (PInt 34) (PInt 587) = false
  ∧ search (field_eq "index_key" (PInt 587))
      (table_of (write_cache_entry sample_env "cache/inventory_types.json" (PInt 34)
                   tritanium cached_world).2 "cache/inventory_types.json")
    = search (field_eq "index_key" (PInt 587))
        (table_of cached_world "cache/inventory_types.json").
Proof.
  split; [ reflexivity | ]. split; [ reflexivity | ]. split; [ reflexivity | ].
  split; [ reflexivity | ].
  apply (write_cache_entry_other_keys sample_env "cache/inventory_types.json"
           (PInt 34) (PInt 587) tritanium cached_world eq_refl eq_refl eq_refl
           eq_refl).
Defined.

Lemma write_cache_entry_corrupt (E : env) (h : string) (k payload : pyval)
    (w : world) :
  store E h = Corrupt →
  write_cache_entry E h k payload w = (Raise (ValueError h), w).
Proof.
  intros Hs. unfold write_cache_entry, db_search, read_table, mbind, M_bind.
  by rewrite Hs.
Qed.

Lemma write_cache_entry_elsewhere (E : env) (h h' : string) (k payload : pyval)
    (w : world) :
  h' ≠ h →
  table_of (write_cache_entry E h k payload w).2 h' = table_of w h'
  ∧ sent (write_cache_entry E h k payload w).2 = sent w
  ∧ (ticks (write_cache_entry E h k payload w).2 ≤ S (ticks w))%nat.
Proof.
  intros Hh. destruct (store E h) eqn:Hs.
  - rewrite (write_cache_entry_healthy E h k payload w Hs). simpl.
    split; [ | split; [ done | lia ] ].
    unfold table_of. simpl. by rewrite lookup_insert_ne.
  - rewrite (write_cache_entry_corrupt E h k payload w Hs).
    simpl. split; [ done | split; [ done | lia ] ].
  - unfold write_cache_entry, db_search, db_update, db_insert, read_table,
      write_table, utcnow_timestamp, mbind, M_bind, mret, M_ret.
    rewrite Hs. simpl.
    destruct (nonempty _); simpl; try rewrite Hs; simpl;
      (split; [ | split; [ done | lia ] ]);
      unfold table_of; simpl; by rewrite lookup_insert_ne.
Qed.

(** X4.  A write through a handle whose file no longer holds JSON raises
    [ValueError] at its first statement, the search, before the clock is
    read, and leaves the world as it was. *)
Theorem write_cache_entry_store_failure (E : env) (h : string) (k payload : pyval)
    (w : world) :
  store E h = Corrupt →
  write_cache_entry E h k payload w = (Raise (ValueError h), w).
Proof. apply write_cache_entry_corrupt. Qed.

Lemma write_cache_entry_store_failure_witness :
  store corrupt_cache_env "cache/inventory_types.json" = Corrupt
  ∧ write_cache_entry corrupt_cache_env "cache/inventory_types.json" (PInt 587) rifter
      cached_world
    = (Raise (ValueError "cache/inventory_types.json"), cached_world).
Proof.
  split; [ reflexivity | ].
  apply (write_cache_entry_store_failure corrupt_cache_env
           "cache/inventory_types.json" (PInt 587) rifter cached_world).
  reflexivity.
Defined.

(** X5.  A write touches its own file only: every other cache file keeps its
    table, no request is sent, and the clock is read at most once. *)
Theorem write_cache_entry_frame (E : env) (h h' : string) (k payload : pyval)
    (w : world) :
  h' ≠ h →
  table_of (write_cache_entry E h k payload w).2 h' = table_of w h'
  ∧ sent (write_cache_entry E h k payload w).2 = sent w
  ∧ (ticks (write_cache_entry E h k payload w).2 ≤ S (ticks w))%nat.
Proof. apply write_cache_entry_elsewhere. Qed.

Lemma write_cache_entry_frame_witness :
  "cache/inventory_types.json" ≠ "cache/map_regions.json"
  ∧ table_of (write_cache_entry sample_env "cache/map_regions.json" (PInt 10000002)
                (PStr "The Forge") cached_world).2 "cache/inventory_types.json"
    = table_of cached_world "cache/inventory_types.json".
Proof.
  split; [ discriminate | ].
  apply (write_cache_entry_frame sample_env "cache/map_regions.json"
           "cache/inventory_types.json" (PInt 10000002) (PStr "The Forge") cached_world).
  discriminate.
Defined.

(** ** More on [fetch_crest_endpoint] *)

Section Fetch.
Context (E : env).




End Fetch.



(** X11.  No retry and no caching in the fetch: on every input it leaves the
    cache tables and the clock alone, and either raises without a request or
    sends exactly one. *)
Theorem fetch_crest_endpoint_one_request (E : env) (endpoint_name crest_base : string)
    (config : option ConfigParser) (kwargs : gmap string pyval) (w : world) :
  tables (fetch_crest_endpoint E endpoint_name crest_base config kwargs w).2 = tables w
  ∧ ticks (fetch_crest_endpoint E endpoint_name crest_base config kwargs w).2 = ticks w
  ∧ ((sent (fetch_crest_endpoint E endpoint_name crest_base config kwargs w).2 = sent w
      ∧ ∃ e, (fetch_crest_endpoint E endpoint_name crest_base config kwargs w).1
             = Raise e)
     ∨ ∃ u, sent (fetch_crest_endpoint E endpoint_name crest_base config kwargs w).2
            = (sent w ++ [u])%list).
Proof.
  destruct (fetch_crest_endpoint_cases E endpoint_name crest_base config kwargs w)
    as [[e ->] | [u ->]]; simpl.
  - split; [ done | ]. split; [ done | ]. left. eauto.
  - split; [ done | ]. split; [ done | ]. right. eauto.
Qed.

(** ** More on [validate_id] *)

Section Validate.
Context (E : env).

(** What the fetch returns, as a function of the configuration, the keywords
    and the remote service. *)
Lemma fetch_crest_endpoint_outcome (endpoint_name crest_base : string)
    (config : option ConfigParser) (kwargs : gmap string pyval) (w : world) :
  (fetch_crest_endpoint E endpoint_name crest_base config kwargs w).1
  = match config_get config "RESOURCES" RESOURCES endpoint_name with
    | Raise (NoOptionError _ _) =>
        Raise (UnsupportedCrestEndpoint
                 ("No " +:+ endpoint_name +:+ " found in [RESOURCES]"))
    | Raise e => Raise e
    | Ok template =>
        match format (Lit crest_base :: template) kwargs with
        | Raise (KeyError key) => Raise (CrestAddressError (repr_KeyError key))
        | Raise e => Raise e
        | Ok u =>
            match config_get config "GLOBAL" GLOBAL "useragent" with
            | Raise e => Raise e
            | Ok _ =>
                match remote E u with
                | NoConnection => Raise ConnectionError
                | Response status_code body =>
                    match raise_for_status (status_code, body) with
                    | Raise e => Raise e
                    | Ok _ => json (status_code, body)
                    end
                end
            end
        end
    end.
Proof.
  unfold fetch_crest_endpoint, requests_get, mbind, M_bind, lift.
  destruct (config_get config "RESOURCES" RESOURCES endpoint_name) as [template|e].
  2: { by destruct e. }
  destruct (format (Lit crest_base :: template) kwargs) as [u|e].
  2: { by destruct e. }
  destruct (config_get config "GLOBAL" GLOBAL "useragent") as [useragent|e]; [ | done ].
  destruct (remote E u) as [ | status_code body ]; [ done | ].
  destruct (raise_for_status (status_code, body)); done.
Qed.

Lemma validate_id_bypass_outcome (endpoint_name : string) (type_id : pyval)
    (config : option ConfigParser) (w : world) :
  (validate_id E endpoint_name type_id true config w).1
  = match endpoint_to_kwarg endpoint_name type_id with
    | Raise e => Raise (IDValidationError 404 endpoint_name type_id e)
    | Ok kwarg_pair =>
        match (fetch_crest_endpoint E endpoint_name CREST_BASE (api_config_CONFIG E)
                 kwarg_pair w).1 with
        | Ok type_info => Ok type_info
        | Raise e => Raise (IDValidationError 404 endpoint_name type_id e)
        end
    end.
Proof.
  unfold validate_id. simpl. rewrite request_and_update_no_handle.
  unfold mbind, M_bind, lift.
  destruct (endpoint_to_kwarg endpoint_name type_id) as [kwarg_pair|e]; [ | done ].
  destruct (fetch_crest_endpoint E endpoint_name CREST_BASE (api_config_CONFIG E)
              kwarg_pair w) as [[type_info|e] w']; done.
Qed.

Lemma cache_lookup_ticks (endpoint_name : string) (type_id : pyval)
    (config : option ConfigParser) (w : world) :
  (ticks (cache_lookup E endpoint_name type_id config w).2 ≤ S (ticks w))%nat.
Proof.
  unfold cache_lookup, setup_cache_file, utcnow_timestamp, mbind, M_bind, mret,
    M_ret, raise, lift.
  destruct (store E _); simpl; try lia.
  all: destruct (config_get config "CACHING" CACHING "sde_cache_limit") as [limit|];
    simpl; try lia.
  all: destruct (int limit); simpl; try lia.
  all: rewrite db_find_raises; simpl; lia.
Qed.

Lemma validate_id_without_bypass_world (endpoint_name : string) (type_id : pyval)
    (config : option ConfigParser) (w : world) :
  (validate_id E endpoint_name type_id false config w).2
  = (cache_lookup E endpoint_name type_id config w).2.
Proof.
  unfold validate_id. simpl.
  destruct (cache_lookup_unbound E endpoint_name type_id config w) as (Hv & _).
  destruct (cache_lookup E endpoint_name type_id config w) as [vars w1].
  simpl in *. by rewrite Hv.
Qed.

(** X12.  What can come out of [validate_id]: with [cache_buster], the
    fetched data or an [IDValidationError] with status 404 that names the
    endpoint and the identifier, whatever went wrong; without it, an
    [UnboundLocalError].  No other exception leaves the function. *)
Theorem validate_id_outcomes (endpoint_name : string) (type_id : pyval)
    (cache_buster : bool) (config : option ConfigParser) (w : world) :
  (cache_buster = true
   ∧ ∃ type_info,
       (validate_id E endpoint_name type_id cache_buster config w).1 = Ok type_info)
  ∨ (cache_buster = true
     ∧ ∃ cause, (validate_id E endpoint_name type_id cache_buster config w).1
                = Raise (IDValidationError 404 endpoint_name type_id cause))
  ∨ (cache_buster = false
     ∧ (validate_id E endpoint_name type_id cache_buster config w).1
       = Raise (UnboundLocalError "cache_val")).
Proof.
  destruct cache_buster.
  2: { right. right. split; [ done | apply validate_id_without_bypass ]. }
  rewrite validate_id_bypass_outcome.
  destruct (endpoint_to_kwarg endpoint_name type_id) as [kwarg_pair|e]; [ | eauto ].
  destruct (fetch_crest_endpoint E endpoint_name CREST_BASE (api_config_CONFIG E)
              kwarg_pair w).1; eauto.
Qed.

(** X14.  While [api_config.CONFIG] is [None], as config.py leaves it, a call
    with [cache_buster] stops at [config.get] (or at the resolver, for an
    unknown endpoint) and raises the [IDValidationError] without sending a
    request; whatever [config] the caller passes is not handed to the
    fetch. *)
Theorem validate_id_imported_config (endpoint_name : string) (type_id : pyval)
    (config : option ConfigParser) (w : world) :
  api_config_CONFIG E = None →
  validate_id E endpoint_name type_id true config w
  = (Raise (IDValidationError 404 endpoint_name type_id
              match endpoint_to_kwarg endpoint_name type_id with
              | Raise e => e
              | Ok _ => AttributeError "NoneType" "get"
              end), w).
Proof.
  intros Hnone. unfold validate_id. simpl. rewrite request_and_update_no_handle.
  unfold mbind, M_bind, lift, fetch_crest_endpoint, mbind, M_bind, lift.
  rewrite Hnone. simpl.
  destruct (endpoint_to_kwarg endpoint_name type_id); done.
Qed.

(** X16.  The footprint of a call: no cache table is written, at most one
    request is sent and the clock is read at most once; without
    [cache_buster] no request is sent, and with it the clock is not read. *)
Theorem validate_id_footprint (endpoint_name : string) (type_id : pyval)
    (cache_buster : bool) (config : option ConfigParser) (w : world) :
  let w' := (validate_id E endpoint_name type_id cache_buster config w).2 in
  tables w' = tables w
  ∧ (sent w' = sent w ∨ ∃ u, sent w' = (sent w ++ [u])%list)
  ∧ (ticks w' ≤ S (ticks w))%nat
  ∧ (cache_buster = false → sent w' = sent w)
  ∧ (cache_buster = true → ticks w' = ticks w).
Proof.
  simpl. split; [ apply validate_id_tables | ].
  destruct cache_buster.
  - assert (ticks (validate_id E endpoint_name type_id true config w).2 = ticks w
            ∧ (sent (validate_id E endpoint_name type_id true config w).2 = sent w
               ∨ ∃ u, sent (validate_id E endpoint_name type_id true config w).2
                      = (sent w ++ [u])%list)) as [Hticks Hsent].
    { unfold validate_id. simpl. rewrite request_and_update_no_handle.
      unfold mbind, M_bind, lift.
      destruct (endpoint_to_kwarg endpoint_name type_id) as [kwarg_pair|e]; [ | eauto ].
      destruct (fetch_crest_endpoint_cases E endpoint_name CREST_BASE
                  (api_config_CONFIG E) kwarg_pair w) as [[e ->] | [u ->]]; [ eauto | ].
      destruct (remote E u) as [ | status_code body ]; [ simpl; eauto | ].
      destruct (raise_for_status (status_code, body)); [ | simpl; eauto ].
      destruct (json (status_code, body)); simpl; eauto. }
    rewrite Hticks. repeat split; [ exact Hsent | lia | discriminate ].
  - destruct (validate_id_without_bypass E endpoint_name type_id config w)
      as (_ & _ & Hsent).
    rewrite Hsent, validate_id_without_bypass_world.
    repeat split; [ by left | apply cache_lookup_ticks | discriminate ].
Qed.

End Validate.

Lemma validate_id_imported_config_witness :
  api_config_CONFIG imported_env = None
  ∧ validate_id imported_env "inventory_types" (PInt 587) true (Some sample_config)
      cached_world
    = (Raise (IDValidationError 404 "inventory_types" (PInt 587)
                (AttributeError "NoneType" "get")), cached_world).
Proof.
  split; [ reflexivity | ].
  apply (validate_id_imported_config imported_env "inventory_types" (PInt 587)
           (Some sample_config) cached_world eq_refl).
Defined.

(** X13.  With [cache_buster], what a call returns or raises depends on the
    endpoint, the identifier, the configuration held in the defaults and the
    remote service only: not on the [config] argument, the cache files, their
    state, or the clock. *)
Theorem validate_id_bypass_depends_on (E1 E2 : env) (endpoint_name : string)
    (type_id : pyval) (config1 config2 : option ConfigParser) (w1 w2 : world) :
  api_config_CONFIG E1 = api_config_CONFIG E2 →
  (∀ u, remote E1 u = remote E2 u) →
  (validate_id E1 endpoint_name type_id true config1 w1).1
  = (validate_id E2 endpoint_name type_id true config2 w2).1.
Proof.
  intros Hc Hrem. rewrite !validate_id_bypass_outcome.
  destruct (endpoint_to_kwarg endpoint_name type_id) as [kwarg_pair|e]; [ | done ].
  rewrite !fetch_crest_endpoint_outcome, Hc.
  destruct (config_get (api_config_CONFIG E2) "RESOURCES" RESOURCES endpoint_name)
    as [template|e]; [ | done ].
  destruct (format (Lit CREST_BASE :: template) kwarg_pair) as [u|e]; [ | done ].
  by rewrite Hrem.
Qed.

Lemma validate_id_bypass_depends_on_witness :
  api_config_CONFIG sample_env = api_config_CONFIG offline_cache_env
  ∧ (∀ u, remote sample_env u = remote offline_cache_env u)
  ∧ (validate_id sample_env "inventory_types" (PInt 587) true (Some sample_config)
       cached_world).1
    = (validate_id offline_cache_env "inventory_types" (PInt 587) true None
         empty_world).1.
Proof.
  split; [ reflexivity | ]. split; [ reflexivity | ].
  apply (validate_id_bypass_depends_on sample_env offline_cache_env "inventory_types"
           (PInt 587) (Some sample_config) None cached_world empty_world);
    reflexivity.
Defined.

(** ** [load_globals] *)

(** X17.  With the four options in place, [load_globals] sets the two user
    agents and the two ranges to the configured values, leaves
    [DEFAULT_HISTORY_RANGE] and [EXPECTED_CREST_RANGE] as they were, and
    loading the same configuration again changes nothing. *)
Theorem load_globals_success (c : AppConfig) (g : globals)
    (gs : gmap string string) (cs : gmap string (option Z))
    (useragent useragent_short : string) (prophet_range prophet_max : Z) :
  GLOBAL (sections c) = Some gs →
  gs !! "useragent" = Some useragent →
  gs !! "useragent_short" = Some useragent_short →
  CREST c = Some cs →
  cs !! "prophet_range" = Some (Some prophet_range) →
  cs !! "prophet_max" = Some (Some prophet_max) →
  let g' := {| USER_AGENT := useragent; USER_AGENT_SHORT := useragent_short;
               DEFAULT_RANGE := prophet_range; MAX_RANGE := prophet_max;
               DEFAULT_HISTORY_RANGE := DEFAULT_HISTORY_RANGE g;
               EXPECTED_CREST_RANGE := EXPECTED_CREST_RANGE g |} in
  load_globals (Some c) g = (Ok (), g')
  ∧ load_globals (Some c) g' = (Ok (), g').
Proof.
  intros Hg Hua Hshort Hc Hrange Hmax. simpl.
  unfold load_globals, mbind, G_bind, eval, config_get, crest_get. simpl.
  rewrite Hg, Hua, Hshort, Hc, Hrange, Hmax. simpl. done.
Qed.

Lemma load_globals_success_witness :
  load_globals (Some sample_app_config) imported_globals
  = (Ok (), {| USER_AGENT := "prosper-api"; USER_AGENT_SHORT := "prosper";
               DEFAULT_RANGE := 30; MAX_RANGE := 90;
               DEFAULT_HISTORY_RANGE := 700; EXPECTED_CREST_RANGE := 400 |}).
Proof.
  eapply (load_globals_success sample_app_config imported_globals); reflexivity.
Defined.

(** X18.  [load_globals] is not all or nothing: when it raises, [MAX_RANGE],
    [DEFAULT_HISTORY_RANGE] and [EXPECTED_CREST_RANGE] are as they were, but
    every global whose option was read before the failure already has its new
    value: [USER_AGENT] as soon as [useragent] is found, and
    [USER_AGENT_SHORT] and [DEFAULT_RANGE] too when the failure is at
    [prophet_max]. *)
Theorem load_globals_not_atomic (config : option AppConfig) (g : globals) (e : exn) :
  (load_globals config g).1 = Raise e →
  MAX_RANGE (load_globals config g).2 = MAX_RANGE g
  ∧ DEFAULT_HISTORY_RANGE (load_globals config g).2 = DEFAULT_HISTORY_RANGE g
  ∧ EXPECTED_CREST_RANGE (load_globals config g).2 = EXPECTED_CREST_RANGE g
  ∧ (∀ useragent,
       config_get (sections <$> config) "GLOBAL" GLOBAL "useragent" = Ok useragent →
       USER_AGENT (load_globals config g).2 = useragent)
  ∧ (∀ useragent useragent_short prophet_range,
       config_get (sections <$> config) "GLOBAL" GLOBAL "useragent" = Ok useragent →
       config_get (sections <$> config) "GLOBAL" GLOBAL "useragent_short"
       = Ok useragent_short →
       crest_get config "prophet_range" = Ok (Some prophet_range) →
       USER_AGENT_SHORT (load_globals config g).2 = useragent_short
       ∧ DEFAULT_RANGE (load_globals config g).2 = prophet_range).
Proof.
  unfold load_globals, mbind, G_bind, eval.
  destruct (config_get (sections <$> config) "GLOBAL" GLOBAL "useragent")
    as [ua|e1]; simpl; [ | intros _; repeat split; intros; discriminate ].
  destruct (config_get (sections <$> config) "GLOBAL" GLOBAL "useragent_short")
    as [uas|e2]; simpl;
    [ | intros _; repeat split; intros; try discriminate; congruence ].
  destruct (crest_get config "prophet_range") as [r|e3]; simpl;
    [ | intros _; repeat split; intros; try discriminate; congruence ].
  destruct r as [r|]; simpl;
    [ | intros _; repeat split; intros; try discriminate; congruence ].
  destruct (crest_get config "prophet_max") as [m|e4]; simpl;
    [ | intros _; repeat split; intros; congruence ].
  destruct m as [m|]; simpl; [ discriminate | ].
  intros _. repeat split; intros; congruence.
Qed.

Lemma load_globals_not_atomic_witness :
  (load_globals (Some short_app_config) imported_globals).1
  = Raise (NoOptionError "CREST" "prophet_max")
  ∧ MAX_RANGE (load_globals (Some short_app_config) imported_globals).2 = 180
  ∧ USER_AGENT (load_globals (Some short_app_config) imported_globals).2 = "prosper-api".
Proof.
  destruct (load_globals_not_atomic (Some short_app_config) imported_globals
              (NoOptionError "CREST" "prophet_max") eq_refl)
    as (Hmax & _ & _ & Hagent & _).
  split; [ reflexivity | ]. split; [ exact Hmax | ].
  apply Hagent. reflexivity.
Defined.
